(** * The honeypot web responder: a shallow embedding of
    [srv/web/isc_agent/__main__.py] and the properties of its request
    pipeline.

    Layout: the Python values the handler works on (strings as code points,
    dictionaries, exceptions), the regular-expression calls of
    [apply_customizations], the handler methods in a state-and-exception
    monad over the process state, the signal handlers as a step relation;
    then the theorems. *)

From Stdlib Require Import ZArith List Bool Lia String Ascii DecimalString.
From stdpp Require Import base option list gmap.

#[local] Open Scope Z_scope.

(** ** Python values *)

(** A Python [str] is a sequence of Unicode code points; [bytes] is a
    sequence of octets.  Both are lists of integers here. *)
Definition pystr : Type := list Z.
Definition pybytes : Type := list Z.

(** Literals of the source are ASCII; [py] reads one. *)
Definition py (s : string) : pystr :=
  List.map (fun a => Z.of_N (N_of_ascii a)) (list_ascii_of_string s).

(** The exceptions that can leave the handler's methods. *)
Inductive exn : Type :=
| TypeError
| IndexError
| ValueError
| TemplateError          (* re.error, or IndexError, from a replacement template *)
| UnicodeEncodeError
| UnicodeDecodeError
| BrokenPipeError.

Inductive result (A : Type) : Type :=
| Ok (a : A)
| Raise (e : exn).
Arguments Ok {A} a.
Arguments Raise {A} e.

#[global] Instance exn_eq_dec : EqDecision exn.
Proof. solve_decision. Defined.

(** *** [str.encode('utf-8')] *)

Definition utf8_char (c : Z) : option pybytes :=
  if (c <? 0) then None
  else if (c <? 128) then Some [c]
  else if (c <? 2048) then
    Some [Z.lor 192 (Z.shiftr c 6); Z.lor 128 (Z.land c 63)]
  else if (c <? 65536) then
    if (55296 <=? c) && (c <=? 57343) then None   (* lone surrogate *)
    else Some [Z.lor 224 (Z.shiftr c 12);
               Z.lor 128 (Z.land (Z.shiftr c 6) 63);
               Z.lor 128 (Z.land c 63)]
  else if (c <? 1114112) then
    Some [Z.lor 240 (Z.shiftr c 18);
          Z.lor 128 (Z.land (Z.shiftr c 12) 63);
          Z.lor 128 (Z.land (Z.shiftr c 6) 63);
          Z.lor 128 (Z.land c 63)]
  else None.

Fixpoint encode_utf8 (s : pystr) : result pybytes :=
  match s with
  | [] => Ok []
  | c :: s' =>
      match utf8_char c, encode_utf8 s' with
      | Some b, Ok bs => Ok (b ++ bs)
      | None, _ => Raise UnicodeEncodeError
      | _, Raise e => Raise e
      end
  end.

(** *** [str(n)] for a length *)

Definition str_of_nat (n : nat) : pystr :=
  py (NilEmpty.string_of_uint (Nat.to_uint n)).

(** ** The regular expressions of [apply_customizations] *)

Module Re.

(** [\w] on a [str] pattern: the ASCII letters, digits and underscore, and
    beyond ASCII whatever [str.isalnum] accepts; that table belongs to the
    interpreter and is a parameter, [isalnum]. *)
Section Word.
Variable isalnum : Z -> bool.

Definition is_digit (c : Z) : bool := (48 <=? c) && (c <=? 57).
Definition is_octdigit (c : Z) : bool := (48 <=? c) && (c <=? 55).
Definition is_ascii_letter (c : Z) : bool :=
  ((65 <=? c) && (c <=? 90)) || ((97 <=? c) && (c <=? 122)).

Definition is_word (c : Z) : bool :=
  if c <? 128 then is_ascii_letter c || is_digit c || (c =? 95)
  else isalnum c.

(** [strip_prefix p s]: what follows [p] when [s] starts with [p]. *)
Fixpoint strip_prefix (p s : pystr) : option pystr :=
  match p, s with
  | [], _ => Some s
  | a :: p', b :: s' => if a =? b then strip_prefix p' s' else None
  | _ :: _, [] => None
  end.

(** The greedy [\w+]: the longest run of word characters and the rest. *)
Fixpoint word_run (s : pystr) : pystr * pystr :=
  match s with
  | c :: s' =>
      if is_word c then let (w, r) := word_run s' in (c :: w, r)
      else ([], s)
  | [] => ([], [])
  end.

(** The text of the marker named [name]. *)
Definition marker (name : pystr) : pystr := py "*{*" ++ name ++ py "*}*".

(** A match of [\*{\*(\w+)\*}\*] anchored at the head of [s]: the
    captured name and the text after the match.  [\w+] gives nothing
    back that could help: what follows the run is not a word character,
    and a shorter run is followed by one. *)
Definition match_marker (s : pystr) : option (pystr * pystr) :=
  match strip_prefix (py "*{*") s with
  | None => None
  | Some s1 =>
      match word_run s1 with
      | ([], _) => None
      | (w, r) =>
          match strip_prefix (py "*}*") r with
          | Some rest => Some (w, rest)
          | None => None
          end
      end
  end.

(** [re.findall(r"\*{\*(\w+)\*}\*", s)]: the names of the matches found
    scanning left to right, each scan resuming where the last match
    ended; [skip] counts the characters of that match still to pass. *)
Fixpoint findall_from (skip : nat) (s : pystr) : list pystr :=
  match s with
  | [] => []
  | _ :: s' =>
      match skip with
      | S k => findall_from k s'
      | O =>
          match match_marker s with
          | Some (w, _) => w :: findall_from (length (marker w) - 1) s'
          | None => findall_from 0 s'
          end
      end
  end.

Definition findall (s : pystr) : list pystr := findall_from 0 s.
End Word.

(** *** The replacement template of [re.sub]

    [re.sub] reads its replacement as a template: a backslash starts an
    escape.  [token_at m s] is one turn of the template parser's loop at the
    head of [s]: the text the token stands for, where group 0 is the match
    [m] and the pattern has no other group, and the number of characters of
    the token.  Group names are ASCII decimal numbers, as Python 3.12 has
    it; any other name is an error. *)

Definition escape_char (e : Z) : option Z :=
  if e =? 97 then Some 7          (* \a *)
  else if e =? 98 then Some 8     (* \b *)
  else if e =? 102 then Some 12   (* \f *)
  else if e =? 110 then Some 10   (* \n *)
  else if e =? 114 then Some 13   (* \r *)
  else if e =? 116 then Some 9    (* \t *)
  else if e =? 118 then Some 11   (* \v *)
  else if e =? 92 then Some 92    (* \\ *)
  else None.

(** The characters up to the first [stop], and how many there are. *)
Fixpoint getuntil (stop : Z) (s : pystr) : option pystr :=
  match s with
  | [] => None
  | c :: s' =>
      if c =? stop then Some []
      else match getuntil stop s' with
           | Some n => Some (c :: n)
           | None => None
           end
  end.

Definition octal (ds : list Z) : Z :=
  fold_left (fun acc d => 8 * acc + (d - 48)) ds 0.

Definition token_at (m s : pystr) : result (pystr * nat) :=
  match s with
  | [] => Ok ([], 0%nat)
  | c :: s1 =>
      if negb (c =? 92) then Ok ([c], 1%nat)
      else
        match s1 with
        | [] => Raise TemplateError                 (* bad escape (end of pattern) *)
        | e :: s2 =>
            if e =? 103 then                         (* \g<number> *)
              match s2 with
              | lt :: s3 =>
                  if lt =? 60 then
                    match getuntil 62 s3 with
                    | None => Raise TemplateError    (* missing > *)
                    | Some [] => Raise TemplateError (* missing group name *)
                    | Some name =>
                        if forallb is_digit name && forallb (Z.eqb 48) name
                        then Ok (m, (4 + length name)%nat)
                        else Raise TemplateError     (* no such group *)
                    end
                  else Raise TemplateError           (* missing < *)
              | [] => Raise TemplateError
              end
            else if e =? 48 then                     (* \0, \0o, \0oo *)
              match s2 with
              | d1 :: s3 =>
                  if is_octdigit d1 then
                    match s3 with
                    | d2 :: _ =>
                        if is_octdigit d2
                        then Ok ([Z.land (octal [e; d1; d2]) 255], 4%nat)
                        else Ok ([Z.land (octal [e; d1]) 255], 3%nat)
                    | [] => Ok ([Z.land (octal [e; d1]) 255], 3%nat)
                    end
                  else Ok ([0], 2%nat)
              | [] => Ok ([0], 2%nat)
              end
            else if is_digit e then                  (* \ooo, or a group number *)
              match s2 with
              | d1 :: d2 :: _ =>
                  if is_digit d1 && is_octdigit e && is_octdigit d1
                     && is_octdigit d2
                  then if 255 <? octal [e; d1; d2] then Raise TemplateError
                       else Ok ([octal [e; d1; d2]], 4%nat)
                  else Raise TemplateError           (* invalid group reference *)
              | _ => Raise TemplateError
              end
            else
              match escape_char e with
              | Some x => Ok ([x], 2%nat)
              | None =>
                  if is_ascii_letter e then Raise TemplateError  (* bad escape *)
                  else Ok ([c; e], 2%nat)
              end
        end
  end.

(** The template expanded for the match [m]; [skip] counts the characters
    of the current token still to pass. *)
Fixpoint expand_from (skip : nat) (m s : pystr) : result pystr :=
  match s with
  | [] => Ok []
  | _ :: s' =>
      match skip with
      | S k => expand_from k m s'
      | O =>
          match token_at m s with
          | Raise e => Raise e
          | Ok (lit, n) =>
              match expand_from (n - 1) m s' with
              | Ok r => Ok (lit ++ r)
              | Raise e => Raise e
              end
          end
      end
  end.

Definition expand_template (m repl : pystr) : result pystr :=
  expand_from 0 m repl.

(** Every leftmost match of the literal text [pat] in [s] replaced by [r],
    the scan resuming after each match. *)
Fixpoint replace_from (skip : nat) (pat r s : pystr) : pystr :=
  match s with
  | [] => []
  | c :: s' =>
      match skip with
      | S k => replace_from k pat r s'
      | O =>
          match strip_prefix pat s with
          | Some _ => r ++ replace_from (length pat - 1) pat r s'
          | None => c :: replace_from 0 pat r s'
          end
      end
  end.

(** [re.sub(f"\\*{{\\*{name}\\*}}\\*", repl, s)] for a [name] of word
    characters: the pattern is the marker's text, character for
    character.  The template is parsed before the search, so a bad one
    raises whether or not there is a match. *)
Definition sub_marker (name repl s : pystr) : result pystr :=
  match expand_template (marker name) repl with
  | Raise e => Raise e
  | Ok r => Ok (replace_from 0 (marker name) r s)
  end.

End Re.

(** ** [date_time_string]: the HTTP date of a clock reading *)

Module HttpDate.

(** The civil date of the day [z] days after 1970-01-01, in the proleptic
    Gregorian calendar: year, month (1..12), day (1..31). *)
Definition civil_from_days (z : Z) : Z * Z * Z :=
  let z := z + 719468 in
  let era := z / 146097 in
  let doe := z mod 146097 in
  let yoe := (doe - doe / 1460 + doe / 36524 - doe / 146096) / 365 in
  let doy := doe - (365 * yoe + yoe / 4 - yoe / 100) in
  let mp := (5 * doy + 2) / 153 in
  let d := doy - (153 * mp + 2) / 5 + 1 in
  let m := if mp <? 10 then mp + 3 else mp - 9 in
  let y := yoe + era * 400 + (if m <=? 2 then 1 else 0) in
  (y, m, d).


(** Monday is 0; 1970-01-01 was a Thursday. *)
Definition weekday (z : Z) : Z := (z + 3) mod 7.

Definition day_names : list pystr :=
  [py "Mon"; py "Tue"; py "Wed"; py "Thu"; py "Fri"; py "Sat"; py "Sun"].
Definition month_names : list pystr :=
  [py "Jan"; py "Feb"; py "Mar"; py "Apr"; py "May"; py "Jun";
   py "Jul"; py "Aug"; py "Sep"; py "Oct"; py "Nov"; py "Dec"].

(** [%02d] and [%04d] on numbers that fit. *)
Definition d2 (n : Z) : pystr := [48 + n / 10; 48 + n mod 10].
Definition d4 (n : Z) : pystr :=
  [48 + n / 1000; 48 + (n / 100) mod 10; 48 + (n / 10) mod 10; 48 + n mod 10].

(** ['%s, %02d %s %04d %02d:%02d:%02d GMT'] on the fields of a time. *)
Definition format_fields (wd day mon year hh mm ss : Z) : pystr :=
  nth (Z.to_nat wd) day_names [] ++ py ", " ++ d2 day ++ py " "
  ++ nth (Z.to_nat (mon - 1)) month_names [] ++ py " " ++ d4 year ++ py " "
  ++ d2 hh ++ py ":" ++ d2 mm ++ py ":" ++ d2 ss ++ py " GMT".

(** The date of [t] seconds since the epoch, UTC.  [datetime] has the years
    1 to 9999 and raises outside them. *)
Definition date_time_string (t : Z) : result pystr :=
  let days := t / 86400 in
  let secs := t mod 86400 in
  let '(y, m, d) := civil_from_days days in
  if (1 <=? y) && (y <=? 9999) then
    Ok (format_fields (weekday days) d m y
          (secs / 3600) ((secs mod 3600) / 60) (secs mod 60))
  else Raise ValueError.


End HttpDate.

(** ** Dictionaries whose order shows

    A header dictionary is iterated in insertion order: an association list
    with the keys in that order.  [dict_set] overwrites in place or appends,
    as [d[k] = v] does. *)

Fixpoint dict_get {V : Type} (k : pystr) (d : list (pystr * V)) : option V :=
  match d with
  | [] => None
  | (k', v) :: d' => if decide (k' = k) then Some v else dict_get k d'
  end.

Fixpoint dict_set {V : Type} (k : pystr) (v : V) (d : list (pystr * V))
  : list (pystr * V) :=
  match d with
  | [] => [(k, v)]
  | (k', v') :: d' =>
      if decide (k' = k) then (k, v) :: d' else (k', v') :: dict_set k v d'
  end.

(** ** The data of the agent *)

(** A response of [isc_agent.responses]: a dictionary with the optional
    entries [status_code], [headers] and [body]; [resp_other] lists the keys
    of any other entry, which [responder] does not read. *)
Record Response : Type := mkResponse {
  resp_status_code : option Z;
  resp_headers : option (list (pystr * pystr));
  resp_body : option pystr;
  resp_other : list pystr
}.

(** [not resp]: the dictionary has no entry. *)
Definition resp_is_empty (r : Response) : bool :=
  match resp_status_code r, resp_headers r, resp_body r, resp_other r with
  | None, None, None, [] => true
  | _, _, _, _ => false
  end.

(** A signature of [isc_agent.signatures]: a dictionary with the optional
    entry [responses]; [sig_rule] holds its other entries, which only the
    scorer reads. *)
Record Signature : Type := mkSignature {
  sig_responses : option (list Z);
  sig_rule : list (pystr * pystr)
}.

(** The truth value of a signature: a dictionary is false when empty. *)
Definition sig_truthy (s : Signature) : bool :=
  match sig_responses s, sig_rule s with
  | None, [] => false
  | _, _ => true
  end.

(** The request as the protocol layer hands it to the handler, and the bytes
    that follow the request head on the connection. *)
Record Request : Type := mkRequest {
  rq_path : pystr;                        (* self.path *)
  rq_command : pystr;                     (* self.command *)
  rq_client_address : pystr;              (* self.client_address[0] *)
  rq_headers : list (pystr * pystr);      (* self.headers.items() *)
  rq_request_version : pystr;             (* self.request_version *)
  rq_rfile : pybytes                      (* what self.rfile can read *)
}.

(** [RequestShim], the argument of the scorer. *)
Record RequestShim : Type := mkRequestShim {
  shim_path : pystr;
  shim_method : pystr;
  shim_remote_addr : pystr;
  shim_headers : list (pystr * pystr)
}.

(** [log_data], the record queued for submission.  [lr_time] is the clock
    reading the code formats into the [time] entry. *)
Record LogRecord : Type := mkLogRecord {
  lr_time : Z;
  lr_headers : list (pystr * pystr);
  lr_sip : pystr;
  lr_dip : pystr;
  lr_method : pystr;
  lr_url : pystr;
  lr_data : pystr;
  lr_useragent : pystr;
  lr_version : pystr;
  lr_response_id : Z;
  lr_signature_id : option Signature
}.

(** What the handler asks of the protocol layer, call by call.  What that
    layer puts on the wire for a call is its own affair. *)
Inductive event : Type :=
| SendStatus (code : Z)                   (* send_response_only(code) *)
| SendHeader (key value : pystr)          (* send_header(key, value) *)
| EndHeaders                              (* end_headers() *)
| WriteBody (b : pybytes).                (* wfile.write(b) *)

(** The messages of the two loggers, debug messages left out. *)
Inductive logmsg : Type :=
| LogNoSuchResponse (response_id : Z)     (* logger.error in responder *)
| LogSending (response_id : Z) (s : option Signature)  (* logger.info *)
| LogClientDisconnected.                  (* self.logger.exception *)

(** ** The state the handler runs in *)

Record World : Type := mkWorld {
  (* the agent and the module's globals *)
  responses : gmap Z Response;                 (* isc_agent.responses *)
  signatures : list Signature;                 (* isc_agent.signatures *)
  my_ip : pystr;                               (* isc_agent.my_ip *)
  agent_queue : list LogRecord;                (* what add_to_queue has taken *)
  response_customizations : gmap pystr pystr;
  (* the handler object *)
  customized_server_string : option pystr;
  sent : list event;                           (* calls made, oldest first *)
  (* the surroundings *)
  clock : nat -> Z;                            (* successive clock readings *)
  ticks : nat;                                 (* readings taken so far *)
  peer_writes : option nat;   (* writes the peer still takes; None: all *)
  logged : list logmsg
}.

Definition set_responses (f : gmap Z Response -> gmap Z Response) (w : World) :=
  mkWorld (f (responses w)) (signatures w) (my_ip w) (agent_queue w)
    (response_customizations w) (customized_server_string w) (sent w)
    (clock w) (ticks w) (peer_writes w) (logged w).
Definition set_agent_queue (f : list LogRecord -> list LogRecord) (w : World) :=
  mkWorld (responses w) (signatures w) (my_ip w) (f (agent_queue w))
    (response_customizations w) (customized_server_string w) (sent w)
    (clock w) (ticks w) (peer_writes w) (logged w).
Definition set_response_customizations
    (f : gmap pystr pystr -> gmap pystr pystr) (w : World) :=
  mkWorld (responses w) (signatures w) (my_ip w) (agent_queue w)
    (f (response_customizations w)) (customized_server_string w) (sent w)
    (clock w) (ticks w) (peer_writes w) (logged w).
Definition set_customized_server_string (s : option pystr) (w : World) :=
  mkWorld (responses w) (signatures w) (my_ip w) (agent_queue w)
    (response_customizations w) s (sent w)
    (clock w) (ticks w) (peer_writes w) (logged w).
Definition set_sent (f : list event -> list event) (w : World) :=
  mkWorld (responses w) (signatures w) (my_ip w) (agent_queue w)
    (response_customizations w) (customized_server_string w) (f (sent w))
    (clock w) (ticks w) (peer_writes w) (logged w).
Definition set_ticks (n : nat) (w : World) :=
  mkWorld (responses w) (signatures w) (my_ip w) (agent_queue w)
    (response_customizations w) (customized_server_string w) (sent w)
    (clock w) n (peer_writes w) (logged w).
Definition set_peer_writes (p : option nat) (w : World) :=
  mkWorld (responses w) (signatures w) (my_ip w) (agent_queue w)
    (response_customizations w) (customized_server_string w) (sent w)
    (clock w) (ticks w) p (logged w).
Definition set_logged (f : list logmsg -> list logmsg) (w : World) :=
  mkWorld (responses w) (signatures w) (my_ip w) (agent_queue w)
    (response_customizations w) (customized_server_string w) (sent w)
    (clock w) (ticks w) (peer_writes w) (f (logged w)).

(** ** State and exceptions *)

Definition M (A : Type) : Type := World -> result A * World.

#[global] Instance M_ret : MRet M := fun A a w => (Ok a, w).
#[global] Instance M_bind : MBind M := fun A B f m w =>
  match m w with
  | (Ok a, w') => f a w'
  | (Raise e, w') => (Raise e, w')
  end.

Definition raise {A : Type} (e : exn) : M A := fun w => (Raise e, w).
Definition gets {A : Type} (f : World -> A) : M A := fun w => (Ok (f w), w).
Definition modify (f : World -> World) : M unit := fun w => (Ok tt, f w).
Definition lift {A : Type} (r : result A) : M A := fun w => (r, w).

(** [try: body except e: handler]. *)
Definition try_except {A : Type} (body : M A) (e : exn) (handler : M A) : M A :=
  fun w =>
    match body w with
    | (Raise e', w') => if decide (e' = e) then handler w' else (Raise e', w')
    | r => r
    end.

(** A [for] loop with an accumulator, and one without. *)
Fixpoint foldM {A B : Type} (f : A -> B -> M A) (a : A) (l : list B) : M A :=
  match l with
  | [] => mret a
  | b :: l' => a' ← f a b; foldM f a' l'
  end.

Fixpoint forM_ {B : Type} (f : B -> M unit) (l : list B) : M unit :=
  match l with
  | [] => mret tt
  | b :: l' => f b;; forM_ f l'
  end.

Definition log (m : logmsg) : M unit := modify (set_logged (fun l => l ++ [m])).

(** [time.time()], in whole seconds: the next reading of the clock. *)
Definition time_time : M Z := fun w =>
  (Ok (clock w (ticks w)), set_ticks (S (ticks w)) w).

(** ** What the interpreter and its library decide

    Functions of Python the handler calls and whose tables are not
    reproduced here. *)
Record Runtime : Type := mkRuntime {
  isalnum : Z -> bool;                   (* str.isalnum, beyond ASCII *)
  set_iter : list pystr -> list pystr;   (* the order set(l) is iterated in *)
  unquote : pystr -> pystr;              (* urllib.parse.unquote *)
  title : pystr -> pystr;                (* str.title *)
  lower : pystr -> pystr;                (* str.lower *)
  int_of_str : pystr -> option Z;        (* int(s); None: ValueError *)
  decode : pybytes -> option pystr       (* bytes.decode(); None: UnicodeDecodeError *)
}.

(** Iterating [set(l)] visits each element of [l] once. *)
Definition set_iter_ok (rt : Runtime) : Prop :=
  forall l : list pystr,
    NoDup (set_iter rt l) /\ forall x, x ∈ set_iter rt l <-> x ∈ l.

(** ** The protocol layer *)

Definition emit (e : event) : M unit := modify (set_sent (fun l => l ++ [e])).

(** A write to the socket: [BrokenPipeError] once the peer is gone. *)
Definition socket_write : M unit := fun w =>
  match peer_writes w with
  | None => (Ok tt, w)
  | Some (S n) => (Ok tt, set_peer_writes (Some n) w)
  | Some O => (Raise BrokenPipeError, w)
  end.

Definition send_response_only (code : Z) : M unit := emit (SendStatus code).
Definition send_header (key value : pystr) : M unit := emit (SendHeader key value).
Definition end_headers : M unit := socket_write;; emit EndHeaders.
Definition wfile_write (b : pybytes) : M unit := socket_write;; emit (WriteBody b).

(** [self.date_time_string()]. *)
Definition date_time_string : M pystr :=
  t ← time_time; lift (HttpDate.date_time_string t).

(** Modelled from the spec: [Agent.add_to_queue] is not in the source; the
    sink's [enqueue(record)] is fire-and-forget: the record joins the queue
    and the call returns. *)
Definition add_to_queue (r : LogRecord) : M unit :=
  modify (set_agent_queue (fun q => q ++ [r])).

(** ** [HoneypotRequestHandler] *)

Section Handler.
Variable rt : Runtime.

(** Modelled from the spec: [core.score_request] is not in the source; the
    scorer gives a number for a request and a signature, of which only the
    order and the sign matter. *)
Variable score_request : RequestShim -> Signature -> Z.

(** [send_response]: the status line, and the customized [Server] header
    when [responder] has set one; the library's [Server] and [Date] are
    not sent.  [log_request] ends in [log_message], which does nothing. *)
Definition send_response (code : Z) : M unit :=
  send_response_only code;;
  s ← gets customized_server_string;
  match s with
  | Some (c :: v) => send_header (py "Server") (c :: v)
  | _ => mret tt
  end.

Definition apply_customizations (text_element : pystr) : M pystr :=
  d ← date_time_string;
  modify (set_response_customizations (<[py "date" := d]>));;
  let custom_tags := Re.findall (isalnum rt) text_element in
  foldM (fun text_element eachtag =>
           tags ← gets response_customizations;
           let markup := default [] (tags !! eachtag) in
           lift (Re.sub_marker eachtag markup text_element))
        text_element (set_iter rt custom_tags).

Definition responder (response_id : Z) : M unit :=
  table ← gets responses;
  match table !! response_id with
  | None => raise TypeError                       (* dict(None) *)
  | Some resp =>
      (if resp_is_empty resp then log (LogNoSuchResponse response_id)
       else mret tt);;
      let headers := default [] (resp_headers resp) in
      modify (set_customized_server_string (dict_get (py "Server") headers));;
      body ← apply_customizations (default (py "Not Found") (resp_body resp));
      body_bytes ← lift (encode_utf8 body);
      let default_status_code :=
        if (length (py "PAGE NOT FOUND.") <? length body_bytes)%nat
        then 200 else 404 in
      let status_code := default default_status_code (resp_status_code resp) in
      send_response status_code;;
      let headers := default [] (resp_headers resp) in
      let headers :=
        dict_set (py "Content-Type")
          (default (py "text/html") (dict_get (py "Content-Type") headers))
          headers in
      let headers :=
        dict_set (py "Content-Length") (str_of_nat (length body_bytes))
          headers in
      (* the dictionary written to is the stored response's own *)
      match resp_headers resp with
      | Some _ =>
          modify (set_responses
            (<[response_id :=
                 mkResponse (resp_status_code resp) (Some headers)
                   (resp_body resp) (resp_other resp)]>))
      | None => mret tt
      end;;
      forM_ (fun kv : pystr * pystr =>
               let (key, value) := kv in
               if decide (key = py "Server") then mret tt
               else formatted_value ← apply_customizations value;
                    send_header key formatted_value)
            headers;;
      end_headers;;
      wfile_write body_bytes
  end.

(** The headers of [RequestShim]: names with ["_"] turned into ["-"] and
    title-cased, a later header of the same name replacing an earlier. *)
Definition shim_header_name (k : pystr) : pystr :=
  title rt (List.map (fun c => if c =? 95 then 45 else c) k).

Definition make_shim_headers (items : list (pystr * pystr))
  : list (pystr * pystr) :=
  fold_left (fun d kv => dict_set (shim_header_name (fst kv)) (snd kv) d)
    items [].

(** [self.headers.get(name, "")]: the first header of that name, whatever
    its case. *)
Fixpoint message_get (name : pystr) (items : list (pystr * pystr)) : pystr :=
  match items with
  | [] => []
  | (k, v) :: items' =>
      if decide (lower rt k = lower rt name) then v
      else message_get name items'
  end.

(** One turn of the loop over the signatures. *)
Definition scan_step (request : RequestShim) (best : Z * option Signature)
    (signature : Signature) : Z * option Signature :=
  let score := score_request request signature in
  if fst best <? score then (score, Some signature) else best.

(** [best_score] and [best_signature] after the loop. *)
Definition best_match (request : RequestShim) (sigs : list Signature)
  : Z * option Signature :=
  fold_left (scan_step request) sigs (-1, None).

(** [random.choice(seq)], [rnd] being the draw. *)
Definition random_choice (rnd : nat) (seq : list Z) : result Z :=
  match seq with
  | [] => Raise IndexError
  | a :: _ => Ok (nth (rnd mod length seq) seq a)
  end.

(** The candidate list of a signature: [signature.get("responses", [1])]. *)
Definition candidates (s : Signature) : list Z := default [1] (sig_responses s).

Definition choose_response_id (rnd : nat) (best : Z * option Signature)
  : result Z :=
  match snd best with
  | Some s =>
      if sig_truthy s && (0 <? fst best)
      then random_choice rnd (candidates s)
      else Ok 1
  | None => Ok 1
  end.

(** [self.rfile.read(n)]: up to [n] bytes, all of them for a negative
    [n]. *)
Definition rfile_read (n : Z) (stream : pybytes) : pybytes :=
  if n <? 0 then stream else take (Z.to_nat n) stream.

Definition handle_request (rq : Request) (rnd : nat) : M unit :=
  let path := unquote rt (rq_path rq) in
  let method := rq_command rq in
  let remote_addr := rq_client_address rq in
  let headers := rq_headers rq in
  let request :=
    mkRequestShim path method remote_addr (make_shim_headers headers) in
  sigs ← gets signatures;
  let best := best_match request sigs in
  response_id ← lift (choose_response_id rnd best);
  log (LogSending response_id (snd best));;
  try_except
    (responder response_id;;
     content_length ←
       lift (match dict_get (py "Content-Length") (shim_headers request) with
             | None => Ok 0
             | Some v => match int_of_str rt v with
                         | Some n => Ok n
                         | None => Raise ValueError
                         end
             end);
     post_data ←
       lift (match decode rt (rfile_read content_length (rq_rfile rq)) with
             | Some s => Ok s
             | None => Raise UnicodeDecodeError
             end);
     now ← time_time;
     dip ← gets my_ip;
     add_to_queue
       {| lr_time := now;
          lr_headers := shim_headers request;
          lr_sip := remote_addr;
          lr_dip := dip;
          lr_method := method;
          lr_url := path;
          lr_data := post_data;
          lr_useragent := message_get (py "User-Agent") headers;
          lr_version := rq_request_version rq;
          lr_response_id := response_id;
          lr_signature_id := snd best |})
    BrokenPipeError
    (log LogClientDisconnected).

(** [do_GET], [do_POST], [do_HEAD], [do_PUT] and [do_DELETE] all are
    [handle_request]. *)
Definition do_GET := handle_request.
Definition do_POST := handle_request.
Definition do_HEAD := handle_request.
Definition do_PUT := handle_request.
Definition do_DELETE := handle_request.
End Handler.

(** The value the Template Engine has for a tag: [tags.get(name, "")]. *)
Definition tag_value (tags : gmap pystr pystr) (name : pystr) : pystr :=
  default [] (tags !! name).

(** ** The Template Engine as the specification words it

    [render(text, tags)] at a clock reading [now]: the tags with [date] set
    to the date of [now], every marker the scan of [text] finds replaced in
    the order the set of their names is iterated.  [apply_customizations]
    is compared with it below. *)
Definition render (rt : Runtime) (tags : gmap pystr pystr) (now : Z)
    (text : pystr) : result pystr :=
  match HttpDate.date_time_string now with
  | Raise e => Raise e
  | Ok d =>
      fold_left
        (fun acc name =>
           match acc with
           | Ok t => Re.sub_marker name (tag_value (<[py "date" := d]> tags) name) t
           | Raise e => Raise e
           end)
        (set_iter rt (Re.findall (isalnum rt) text)) (Ok text)
  end.


(** A text cut into markers and the text between them. *)
Inductive segment : Type :=
| Lit (l : pystr)
| Mark (name : pystr).



(** The text with each marker replaced by what [f] gives for its name. *)
Definition subst (f : pystr -> pystr) (segs : list segment) : pystr :=
  concat (List.map (fun s => match s with Lit l => l | Mark n => f n end) segs).






(** The world after [apply_customizations]: one clock reading taken, and
    [date] stored when the reading has a date. *)
Definition after_customizations (w : World) : World :=
  match HttpDate.date_time_string (clock w (ticks w)) with
  | Ok d =>
      set_response_customizations (<[py "date" := d]>) (set_ticks (S (ticks w)) w)
  | Raise _ => set_ticks (S (ticks w)) w
  end.

(** What [responder] computes on the way: the status it sends, the header
    dictionary it iterates, the [Server] header [send_response] adds, and
    what relates a header sent in the loop to the entry it comes from. *)
Definition status_of (resp : Response) (body_bytes : pybytes) : Z :=
  default (if (length (py "PAGE NOT FOUND.") <? length body_bytes)%nat
           then 200 else 404)
          (resp_status_code resp).

Definition response_headers (resp : Response) (body_bytes : pybytes)
  : list (pystr * pystr) :=
  let headers := default [] (resp_headers resp) in
  dict_set (py "Content-Length") (str_of_nat (length body_bytes))
    (dict_set (py "Content-Type")
       (default (py "text/html") (dict_get (py "Content-Type") headers))
       headers).

Definition server_events (s : option pystr) : list event :=
  match s with
  | Some (c :: v) => [SendHeader (py "Server") (c :: v)]
  | _ => []
  end.

Definition not_server (kv : pystr * pystr) : bool :=
  bool_decide (fst kv <> py "Server").

Definition header_event (rt : Runtime) (e : event) (kv : pystr * pystr) : Prop :=
  exists tags now v,
    e = SendHeader (fst kv) v /\ render rt tags now (snd kv) = Ok v.

(** The headers a trace sends, and those of one name. *)
Definition headers_sent (evs : list event) : list (pystr * pystr) :=
  omap (fun e => match e with SendHeader k v => Some (k, v) | _ => None end) evs.

Definition headers_named (name : pystr) (evs : list event) : list pystr :=
  omap (fun e => match e with
                 | SendHeader k v => if decide (k = name) then Some v else None
                 | _ => None
                 end) evs.

(** ** Notions the properties are stated with *)

(** Every run of [m] relates the world it starts in to the one it ends
    in. *)
Definition keeps {A : Type} (R : World -> World -> Prop) (m : M A) : Prop :=
  forall w r w', m w = (r, w') -> R w w'.

(** The agent's queue, address and signatures are the same. *)
Definition same_agent (w w' : World) : Prop :=
  agent_queue w' = agent_queue w /\ my_ip w' = my_ip w /\
  signatures w' = signatures w.

(** The log has only grown. *)
Definition log_grows (w w' : World) : Prop :=
  exists l, logged w' = logged w ++ l.

(** [s] is the first of [sigs] with the greatest score. *)
Definition first_best (score : Signature -> Z) (sigs : list Signature)
    (s : Signature) : Prop :=
  exists l1 l2, sigs = l1 ++ s :: l2 /\
    Forall (fun x => score x < score s) l1 /\
    Forall (fun x => score x <= score s) l2.

(** The values of the entries of a header dictionary under one key. *)
Definition values_named (name : pystr) (hs : list (pystr * pystr)) : list pystr :=
  omap (fun kv => if decide (fst kv = name) then Some (snd kv) else None) hs.

(** ** Sample inputs

    A runtime for ASCII text, and a small agent. *)
Definition decimal_value (s : pystr) : option Z :=
  match s with
  | [] => None
  | _ => if forallb Re.is_digit s
         then Some (fold_left (fun acc d => 10 * acc + (d - 48)) s 0)
         else None
  end.

Definition sample_runtime : Runtime :=
  mkRuntime (fun _ => false) remove_dups id id id decimal_value Some.

Definition sample_response : Response :=
  mkResponse None
    (Some [(py "Server", py "nginx"); (py "X-Powered-By", py "*{*banner*}*")])
    (Some (py "Server: *{*banner*}* at *{*date*}*")) [].

Definition sample_signatures : list Signature :=
  [mkSignature (Some [2; 3]) [(py "id", py "1")];
   mkSignature (Some [4]) [(py "id", py "2")]].

Definition sample_world : World :=
  mkWorld {[ 1 := sample_response;
             2 := mkResponse (Some 403) None (Some (py "Forbidden")) [];
             3 := mkResponse None None None [];
             4 := mkResponse None (Some [(py "Server", [])]) (Some (py "ok")) [] ]}
    sample_signatures (py "192.0.2.1") []
    {[ py "banner" := py "Apache/2.4.41" ]}
    None [] (fun n => 1793714700 + Z.min (Z.of_nat n) 3600) 0 None [].

Definition sample_request : Request :=
  mkRequest (py "/admin.php") (py "POST") (py "10.0.0.5")
    [(py "Content_Length", py "3"); (py "User-Agent", py "curl")]
    (py "HTTP/1.1") (py "a=1&b=2").

(** A scorer for the samples: 5 for the signature of id 2 and for that of
    id 1, so that they tie. *)
Definition sample_score (_ : RequestShim) (s : Signature) : Z :=
  match sig_rule s with
  | [] => 0
  | _ => 5
  end.

(** ** The signal handlers

    Python runs a signal handler in the main thread, between two
    instructions of whatever runs there, another handler included: a
    delivery pushes an activation, the innermost activation runs.  The
    state records the calls the handlers have made. *)
Module Signals.

Inductive signal : Type := SIGTERM | SIGINT | SIGHUP.

(** Modelled from the spec: [Agent.shutdown], [Agent.update_honeypot_rules]
    and [StunnelManager.shutdown] are not in the source; the sink's
    [shutdown()] flushes and joins, the tunnel's [shutdown()] stops it.  The
    calls are recorded. *)
Inductive call : Type :=
| AgentShutdown           (* isc_agent.shutdown() *)
| StunnelShutdown         (* stun_mgr.shutdown() *)
| UpdateRules             (* isc_agent.update_honeypot_rules() *)
| SysExit (code : Z).     (* sys.exit(code) *)

#[global] Instance call_eq_dec : EqDecision call.
Proof. solve_decision. Defined.

(** The statements an activation has still to run. *)
Definition activation : Type := list call.

(** [shutdown_handler] and [reload_handler], log calls left out. *)
Definition shutdown_handler : activation :=
  [AgentShutdown; StunnelShutdown; SysExit 0].
Definition reload_handler : activation := [UpdateRules].

(** [signal.signal(...)] of the main body, on a Unix-like system. *)
Definition handler_of (s : signal) : activation :=
  match s with
  | SIGTERM => shutdown_handler
  | SIGINT => shutdown_handler
  | SIGHUP => reload_handler
  end.

Record Proc : Type := mkProc {
  stack : list activation;    (* handler activations, innermost first *)
  calls : list call;          (* calls made, oldest first *)
  exited : bool               (* the process is gone *)
}.

Definition running : Proc := mkProc [] [] false.

Inductive action : Type :=
| Deliver (s : signal)        (* a signal reaches the process *)
| Run.                        (* the main thread runs one statement *)

(** One step.  [sys.exit] unwinds every activation and ends the process;
    nothing happens in a process that is gone. *)
Definition step (p : Proc) (a : action) : Proc :=
  if exited p then p
  else
    match a with
    | Deliver s => mkProc (handler_of s :: stack p) (calls p) false
    | Run =>
        match stack p with
        | [] => p
        | [] :: st => mkProc st (calls p) false
        | (SysExit c :: _) :: _ => mkProc [] (calls p ++ [SysExit c]) true
        | (c :: k) :: st => mkProc (k :: st) (calls p ++ [c]) false
        end
    end.

Definition run (p : Proc) (acts : list action) : Proc := fold_left step acts p.

(** A shutdown is in progress: an activation of [shutdown_handler] has
    started and the process has not exited. *)
Definition shutting_down (p : Proc) : Prop :=
  exited p = false /\ exists k st, stack p = k :: st /\ k `suffix_of` shutdown_handler.

Definition count_call (c : call) (p : Proc) : nat :=
  length (filter (fun x => x = c) (calls p)).

End Signals.

(** * Properties *)

#[local] Arguments Z.eqb : simpl never.
#[local] Arguments Z.ltb : simpl never.
#[local] Arguments Z.leb : simpl never.

(** ** The scan of the regular expressions *)

Section ReFacts.
Variable isalnum : Z -> bool.
Abbreviation is_word := (Re.is_word isalnum).





Lemma strip_prefix_head a p c s : a <> c -> Re.strip_prefix (a :: p) (c :: s) = None.
Proof. intros H. cbn. by destruct (Z.eqb_spec a c). Qed.




(** *** [replace_from] *)








End ReFacts.

(** *** [findall] *)

Section FindFacts.
Variable isalnum : Z -> bool.
Abbreviation is_word := (Re.is_word isalnum).
Abbreviation word_name n := (Forall (fun c => is_word c = true) n).





Lemma match_none_head c s : c <> 42 -> Re.match_marker isalnum (c :: s) = None.
Proof.
  intros H. unfold Re.match_marker.
  change (py "*{*") with [42; 123; 42].
  by rewrite strip_prefix_head by congruence.
Qed.




Lemma findall_nomatch c s :
  Re.match_marker isalnum (c :: s) = None ->
  Re.findall_from isalnum 0 (c :: s) = Re.findall_from isalnum 0 s.
Proof. intros H. cbn [Re.findall_from]. by rewrite H. Qed.


Lemma findall_no_star l : 42 ∉ l -> Re.findall isalnum l = [].
Proof.
  unfold Re.findall. induction l as [|c l IH]; [done|]. intros H.
  apply not_elem_of_cons in H as [Hc Hl].
  rewrite findall_nomatch by (apply match_none_head; congruence). auto.
Qed.


End FindFacts.

(** *** Templates *)



(** ** Texts cut into markers and the text between *)

Section Segments.
Variable rt : Runtime.
Abbreviation word_name n := (Forall (fun c => Re.is_word (isalnum rt) c = true) n).














Lemma set_iter_nil : set_iter_ok rt -> set_iter rt [] = [].
Proof.
  intros H. destruct (H []) as [_ Hin].
  destruct (set_iter rt []) as [|x l]; [done|].
  exfalso. eapply elem_of_nil. apply Hin. by left.
Qed.
End Segments.

(** ** Dates *)

Module HttpDateFacts.
Import HttpDate.
















End HttpDateFacts.

(** ** Running the monad *)

Lemma bind_run {A B : Type} (m : M A) (f : A -> M B) w :
  (m ≫= f) w = match m w with
               | (Ok a, w') => f a w'
               | (Raise e, w') => (Raise e, w')
               end.
Proof. reflexivity. Qed.

Lemma ret_run {A : Type} (a : A) w : (mret a : M A) w = (Ok a, w).
Proof. reflexivity. Qed.

Lemma lift_run {A : Type} (r : result A) w : lift r w = (r, w).
Proof. reflexivity. Qed.

Lemma gets_run {A : Type} (f : World -> A) w : gets f w = (Ok (f w), w).
Proof. reflexivity. Qed.

Lemma modify_run f w : modify f w = (Ok tt, f w).
Proof. reflexivity. Qed.

Lemma raise_run {A : Type} e w : raise (A := A) e w = (Raise e, w).
Proof. reflexivity. Qed.

Lemma time_time_run w :
  time_time w = (Ok (clock w (ticks w)), set_ticks (S (ticks w)) w).
Proof. reflexivity. Qed.

Ltac run :=
  repeat first
    [ rewrite bind_run | rewrite ret_run | rewrite lift_run | rewrite gets_run
    | rewrite modify_run | rewrite raise_run | rewrite time_time_run ].

(** ** The Template Engine *)

Section Render.
Variable rt : Runtime.

Lemma fold_raise {A B : Type} (g : B -> A -> result B) (l : list A) e :
  fold_left (fun acc x => match acc with Ok t => g t x | Raise e => Raise e end)
    l (Raise e) = Raise e.
Proof. induction l as [|a l IH]; [done|]. exact IH. Qed.

Lemma foldM_sub (g : gmap pystr pystr -> pystr -> pystr -> result pystr)
    names text w :
  foldM (fun t name => tags ← gets response_customizations; lift (g tags name t))
    text names w
  = (fold_left (fun acc name =>
                  match acc with
                  | Ok t => g (response_customizations w) name t
                  | Raise e => Raise e
                  end) names (Ok text), w).
Proof.
  revert text. induction names as [|a names IH]; intros text; [done|].
  cbn [foldM fold_left]. run.
  destruct (g (response_customizations w) a text) as [t'|e].
  - apply IH.
  - by rewrite fold_raise.
Qed.

(** [apply_customizations] is [render] on the stored tags at the next
    clock reading. *)
Lemma apply_customizations_render text w :
  apply_customizations rt text w
  = (render rt (response_customizations w) (clock w (ticks w)) text,
     after_customizations w).
Proof.
  unfold apply_customizations, render, after_customizations, date_time_string.
  run.
  destruct (HttpDate.date_time_string (clock w (ticks w))) as [d|e]; [|done].
  run.
  rewrite (foldM_sub (fun tags name t =>
             Re.sub_marker name (default [] (tags !! name)) t)).
  reflexivity.
Qed.


Lemma render_no_findall tags now d text :
  set_iter_ok rt -> HttpDate.date_time_string now = Ok d ->
  Re.findall (isalnum rt) text = [] ->
  render rt tags now text = Ok text.
Proof.
  intros Hset Hd Hf. unfold render. by rewrite Hd, Hf, set_iter_nil.
Qed.

Lemma render_Ok_date tags now text v :
  render rt tags now text = Ok v -> exists d, HttpDate.date_time_string now = Ok d.
Proof.
  unfold render. destruct (HttpDate.date_time_string now); [eauto|done].
Qed.

Lemma render_no_star tags now text v :
  set_iter_ok rt -> 42 ∉ text -> render rt tags now text = Ok v -> v = text.
Proof.
  intros Hset Hs H. destruct (render_Ok_date _ _ _ _ H) as [d Hd].
  rewrite (render_no_findall tags now d) in H; [congruence|done..|].
  by apply findall_no_star.
Qed.

End Render.

(** ** [responder] *)

Section Responder.
Variable rt : Runtime.

Lemma after_customizations_frame w :
  let w' := after_customizations w in
  sent w' = sent w /\ peer_writes w' = peer_writes w /\ logged w' = logged w /\
  agent_queue w' = agent_queue w /\ responses w' = responses w /\
  customized_server_string w' = customized_server_string w /\
  signatures w' = signatures w /\ my_ip w' = my_ip w /\ clock w' = clock w /\
  ticks w' = S (ticks w).
Proof.
  unfold after_customizations.
  by destruct (HttpDate.date_time_string (clock w (ticks w))).
Qed.

Lemma header_loop hs w r w' :
  forM_ (fun kv : pystr * pystr =>
           let (key, value) := kv in
           if decide (key = py "Server") then mret tt
           else formatted_value ← apply_customizations rt value;
                send_header key formatted_value) hs w = (r, w') ->
  exists hevs hs1 hs2,
    List.filter not_server hs = hs1 ++ hs2 /\
    Forall2 (header_event rt) hevs hs1 /\
    (r = Ok tt -> hs2 = []) /\
    sent w' = sent w ++ hevs /\ peer_writes w' = peer_writes w /\
    logged w' = logged w /\ agent_queue w' = agent_queue w /\
    customized_server_string w' = customized_server_string w.
Proof.
  revert w. induction hs as [|[k v] hs IH]; intros w; cbn [forM_].
  - rewrite ret_run. intros [= <- <-]. exists [], [], [].
    rewrite !app_nil_r. repeat split; done.
  - rewrite bind_run. cbn [List.filter].
    destruct (decide (k = py "Server")) as [->|Hk].
    + rewrite ret_run.
      replace (not_server (py "Server", v)) with false
        by (symmetry; apply bool_decide_eq_false_2; by intros ?).
      apply IH.
    + replace (not_server (k, v)) with true
        by (symmetry; by apply bool_decide_eq_true_2).
      rewrite bind_run, apply_customizations_render.
      destruct (after_customizations_frame w) as (Hs & Hp & Hl & Hq & _ & Hc & _).
      destruct (render rt (response_customizations w) (clock w (ticks w)) v)
        as [v'|e] eqn:Er.
      * unfold send_header, emit. rewrite modify_run. intros H.
        apply IH in H as (hevs & hs1 & hs2 & Hf & H2 & Hok & Hsent & Hpw & Hlg & Hqu & Hcs).
        exists (SendHeader k v' :: hevs), ((k, v) :: hs1), hs2.
        split; [by rewrite Hf|]. split.
        { constructor; [|done]. by exists (response_customizations w), (clock w (ticks w)), v'. }
        split; [done|]. cbn in Hsent, Hpw, Hlg, Hqu, Hcs.
        rewrite Hsent, Hs, Hpw, Hp, Hlg, Hl, Hqu, Hq, Hcs, Hc, <- app_assoc. done.
      * intros [= <- <-]. exists [], [], ((k, v) :: List.filter not_server hs).
        rewrite !app_nil_r. repeat split; done.
Qed.

Lemma socket_write_run w :
  socket_write w = match peer_writes w with
                   | None => (Ok tt, w)
                   | Some (S n) => (Ok tt, set_peer_writes (Some n) w)
                   | Some O => (Raise BrokenPipeError, w)
                   end.
Proof. reflexivity. Qed.

Lemma send_response_run code w :
  send_response code w
  = (Ok tt, set_sent (fun l => (l ++ [SendStatus code])
                               ++ server_events (customized_server_string w)) w).
Proof.
  unfold send_response, send_response_only, send_header, emit. run.
  cbn [customized_server_string set_sent].
  destruct (customized_server_string w) as [[|c v]|]; cbn [server_events]; run;
    unfold set_sent; cbn; by rewrite ?app_nil_r.
Qed.

(** [responder], step by step, once the response is resolved. *)
Lemma responder_run response_id resp w :
  responses w !! response_id = Some resp ->
  responder rt response_id w
  = let w1 := if resp_is_empty resp
              then set_logged (fun l => l ++ [LogNoSuchResponse response_id]) w
              else w in
    let w2 := set_customized_server_string
                (dict_get (py "Server") (default [] (resp_headers resp))) w1 in
    match render rt (response_customizations w) (clock w (ticks w))
            (default (py "Not Found") (resp_body resp)) with
    | Raise e => (Raise e, after_customizations w2)
    | Ok body =>
        match encode_utf8 body with
        | Raise e => (Raise e, after_customizations w2)
        | Ok bytes =>
            let w4 :=
              set_sent (fun l => (l ++ [SendStatus (status_of resp bytes)])
                                 ++ server_events
                                      (dict_get (py "Server")
                                         (default [] (resp_headers resp))))
                (after_customizations w2) in
            let w5 :=
              match resp_headers resp with
              | Some _ =>
                  set_responses
                    (<[response_id :=
                         mkResponse (resp_status_code resp)
                           (Some (response_headers resp bytes))
                           (resp_body resp) (resp_other resp)]>) w4
              | None => w4
              end in
            match forM_ (fun kv : pystr * pystr =>
                           let (key, value) := kv in
                           if decide (key = py "Server") then mret tt
                           else formatted_value ← apply_customizations rt value;
                                send_header key formatted_value)
                    (response_headers resp bytes) w5 with
            | (Ok _, w6) => (end_headers;; wfile_write bytes) w6
            | (Raise e, w6) => (Raise e, w6)
            end
        end
    end.
Proof.
  intros Hlook. unfold responder. run. rewrite Hlook. cbv zeta.
  set (w1 := if resp_is_empty resp
             then set_logged (fun l => l ++ [LogNoSuchResponse response_id]) w else w).
  assert (E1 : (if resp_is_empty resp then log (LogNoSuchResponse response_id)
                else mret tt) w = (Ok tt, w1)).
  { subst w1. by destruct (resp_is_empty resp). }
  rewrite bind_run, E1. run.
  rewrite apply_customizations_render.
  assert (F1 : response_customizations w1 = response_customizations w
               /\ clock w1 = clock w /\ ticks w1 = ticks w).
  { subst w1. by destruct (resp_is_empty resp). }
  destruct F1 as (Fc & Fk & Ft).
  set (w2 := set_customized_server_string _ w1).
  change (response_customizations w2) with (response_customizations w1).
  change (clock w2) with (clock w1). change (ticks w2) with (ticks w1).
  rewrite Fc, Fk, Ft.
  destruct (render rt (response_customizations w) (clock w (ticks w))
              (default (py "Not Found") (resp_body resp))) as [body|e]; [|done].
  run. destruct (encode_utf8 body) as [bytes|e]; [|done].
  rewrite bind_run, send_response_run. cbv beta iota.
  assert (Ac : customized_server_string (after_customizations w2)
               = dict_get (py "Server") (default [] (resp_headers resp))).
  { by destruct (after_customizations_frame w2) as (_ & _ & _ & _ & _ & -> & _). }
  rewrite Ac. fold (status_of resp bytes).
  set (w4 := set_sent _ (after_customizations w2)).
  rewrite bind_run. fold (response_headers resp bytes).
  destruct (resp_headers resp) as [hs|]; rewrite ?modify_run, ?ret_run; cbv beta iota;
    rewrite bind_run; by destruct (forM_ _ _ _) as [[[]|e] w6].
Qed.

(** What [responder] leaves on the trace, however it ends. *)
Lemma responder_trace response_id resp w r w' :
  responses w !! response_id = Some resp ->
  responder rt response_id w = (r, w') ->
  exists evs, sent w' = sent w ++ evs /\
    ((evs = [] /\ r <> Ok tt) \/
     exists body bytes hevs hs1 hs2 tail,
       render rt (response_customizations w) (clock w (ticks w))
         (default (py "Not Found") (resp_body resp)) = Ok body /\
       encode_utf8 body = Ok bytes /\
       List.filter not_server (response_headers resp bytes) = hs1 ++ hs2 /\
       Forall2 (header_event rt) hevs hs1 /\
       evs = SendStatus (status_of resp bytes)
             :: server_events (dict_get (py "Server") (default [] (resp_headers resp)))
             ++ hevs ++ tail /\
       ((tail = [] /\ r <> Ok tt) \/
        (hs2 = [] /\ tail = [EndHeaders] /\ r = Raise BrokenPipeError) \/
        (hs2 = [] /\ tail = [EndHeaders; WriteBody bytes] /\ r = Ok tt))).
Proof.
  intros Hlook. rewrite (responder_run _ _ _ Hlook). cbv zeta.
  set (w1 := if resp_is_empty resp then _ else w).
  assert (F1 : sent w1 = sent w /\ peer_writes w1 = peer_writes w).
  { subst w1. by destruct (resp_is_empty resp). }
  destruct F1 as (Fs & Fp).
  set (w2 := set_customized_server_string _ w1).
  destruct (after_customizations_frame w2) as (As & Ap & _).
  destruct (render rt (response_customizations w) (clock w (ticks w))
              (default (py "Not Found") (resp_body resp))) as [body|e] eqn:Er.
  2:{ intros [= <- <-]. exists []. rewrite app_nil_r, As. split; [done|]. by left. }
  destruct (encode_utf8 body) as [bytes|e] eqn:Eb.
  2:{ intros [= <- <-]. exists []. rewrite app_nil_r, As. split; [done|]. by left. }
  set (w4 := set_sent _ (after_customizations w2)).
  set (w5 := match resp_headers resp with Some _ => _ | None => w4 end).
  assert (F5 : sent w5 = sent w4 /\ peer_writes w5 = peer_writes w4).
  { subst w5. by destruct (resp_headers resp). }
  destruct F5 as [F5s F5p].
  assert (F4 : sent w4 = (sent w ++ [SendStatus (status_of resp bytes)])
                 ++ server_events (dict_get (py "Server") (default [] (resp_headers resp)))
               /\ peer_writes w4 = peer_writes w).
  { subst w4. cbn [sent set_sent peer_writes]. rewrite As, Ap. subst w2.
    cbn [sent set_customized_server_string peer_writes].
    by rewrite Fs, Fp. }
  destruct F4 as [F4s F4p].
  destruct (forM_ _ (response_headers resp bytes) w5) as [r6 w6] eqn:E6.
  apply header_loop in E6
    as (hevs & hs1 & hs2 & Hf & H2 & Hok & Hsent & Hpw & _).
  assert (Hev : forall tail, sent w6 ++ tail
      = sent w ++ SendStatus (status_of resp bytes)
         :: server_events (dict_get (py "Server") (default [] (resp_headers resp)))
         ++ hevs ++ tail).
  { intros tail. rewrite Hsent, F5s, F4s. by rewrite <- !app_assoc. }
  destruct r6 as [[]|e].
  2:{ intros [= <- <-]. eexists. split; [rewrite <- (app_nil_r (sent w6)); apply Hev|].
      right. exists body, bytes, hevs, hs1, hs2, []. repeat split; try done. by left. }
  specialize (Hok eq_refl). subst hs2.
  unfold end_headers, wfile_write, emit.
  rewrite bind_run, bind_run, socket_write_run.
  rewrite Hpw, F5p, F4p.
  destruct (peer_writes w) as [[|n]|] eqn:Ew.
  - intros [= <- <-]. eexists. split; [rewrite <- (app_nil_r (sent w6)); apply Hev|].
    right. exists body, bytes, hevs, hs1, []. exists []. repeat split; try done. by left.
  - run. rewrite socket_write_run. cbn [peer_writes set_sent set_peer_writes].
    destruct n as [|n].
    + intros [= <- <-]. cbn [sent set_sent set_peer_writes]. eexists.
      split; [apply Hev|].
      right. exists body, bytes, hevs, hs1, []. exists [EndHeaders].
      repeat split; try done. right. by left.
    + run. intros [= <- <-]. cbn [sent set_sent set_peer_writes]. eexists.
      split; [rewrite <- app_assoc; apply Hev|].
      right. exists body, bytes, hevs, hs1, []. exists [EndHeaders; WriteBody bytes].
      repeat split; try done. right. by right.
  - run. rewrite socket_write_run. cbn [peer_writes set_sent]. rewrite Hpw, F5p, F4p.
    run. intros [= <- <-]. cbn [sent set_sent]. eexists.
    split; [rewrite <- app_assoc; apply Hev|].
    right. exists body, bytes, hevs, hs1, []. exists [EndHeaders; WriteBody bytes].
    repeat split; try done. right. by right.
Qed.
End Responder.

(** ** What a run leaves alone *)

Section Keeps.
Variable R : World -> World -> Prop.
Context `{!PreOrder R}.

Lemma keeps_ret {A : Type} (a : A) : keeps R (mret a : M A).
Proof. intros w r w' [= <- <-]. reflexivity. Qed.

Lemma keeps_lift {A : Type} (x : result A) : keeps R (lift x).
Proof. intros w r w' [= <- <-]. reflexivity. Qed.

Lemma keeps_raise {A : Type} e : keeps R (raise (A := A) e).
Proof. intros w r w' [= <- <-]. reflexivity. Qed.

Lemma keeps_gets {A : Type} (f : World -> A) : keeps R (gets f).
Proof. intros w r w' [= <- <-]. reflexivity. Qed.

Lemma keeps_modify f : (forall w, R w (f w)) -> keeps R (modify f).
Proof. intros H w r w' [= <- <-]. apply H. Qed.

Lemma keeps_bind {A B : Type} (m : M A) (f : A -> M B) :
  keeps R m -> (forall a, keeps R (f a)) -> keeps R (m ≫= f).
Proof.
  intros Hm Hf w r w'. rewrite bind_run.
  destruct (m w) as [[a|e] w1] eqn:E.
  - intros H. etransitivity; [by eapply Hm|by eapply Hf].
  - intros [= <- <-]. by eapply Hm.
Qed.

Lemma keeps_forM {B : Type} (f : B -> M unit) l :
  (forall b, keeps R (f b)) -> keeps R (forM_ f l).
Proof.
  intros Hf. induction l as [|b l IH]; cbn [forM_].
  - apply keeps_ret.
  - apply keeps_bind; [apply Hf|intros _; exact IH].
Qed.

Lemma keeps_foldM {A B : Type} (f : A -> B -> M A) a l :
  (forall a b, keeps R (f a b)) -> keeps R (foldM f a l).
Proof.
  intros Hf. revert a. induction l as [|b l IH]; intros a; cbn [foldM].
  - apply keeps_ret.
  - apply keeps_bind; [apply Hf|intros a'; apply IH].
Qed.

Lemma keeps_try {A : Type} (body handler : M A) e :
  keeps R body -> keeps R handler -> keeps R (try_except body e handler).
Proof.
  intros Hb Hh w r w'. unfold try_except.
  destruct (body w) as [[a|e'] w1] eqn:E.
  - intros [= <- <-]. by eapply Hb.
  - destruct (decide (e' = e)).
    + intros H. etransitivity; [by eapply Hb|by eapply Hh].
    + intros [= <- <-]. by eapply Hb.
Qed.
End Keeps.

#[global] Instance same_agent_preorder : PreOrder same_agent.
Proof.
  split.
  - by intros w.
  - intros w1 w2 w3 (? & ? & ?) (? & ? & ?). repeat split; congruence.
Qed.

#[global] Instance log_grows_preorder : PreOrder log_grows.
Proof.
  split.
  - intros w. exists []. by rewrite app_nil_r.
  - intros w1 w2 w3 [l1 H1] [l2 H2]. exists (l1 ++ l2).
    by rewrite H2, H1, app_assoc.
Qed.

Section HandlerKeeps.
Variable rt : Runtime.
Variable R : World -> World -> Prop.
Context `{!PreOrder R}.
Hypothesis R_ticks : forall n w, R w (set_ticks n w).
Hypothesis R_tags : forall f w, R w (set_response_customizations f w).
Hypothesis R_sent : forall f w, R w (set_sent f w).
Hypothesis R_server : forall s w, R w (set_customized_server_string s w).
Hypothesis R_peer : forall p w, R w (set_peer_writes p w).
Hypothesis R_responses : forall f w, R w (set_responses f w).
Hypothesis R_log : forall m, keeps R (log m).

Lemma keeps_time_time : keeps R time_time.
Proof using R_ticks. intros w r w' [= <- <-]. apply R_ticks. Qed.

Lemma keeps_socket_write : keeps R socket_write.
Proof using R_peer PreOrder0.
  intros w r w'. rewrite socket_write_run.
  destruct (peer_writes w) as [[|n]|]; intros [= <- <-];
    [reflexivity|apply R_peer|reflexivity].
Qed.

Lemma keeps_emit e : keeps R (emit e).
Proof using R_sent. apply keeps_modify. intros w. apply R_sent. Qed.

Lemma keeps_apply_customizations text : keeps R (apply_customizations rt text).
Proof using R_ticks R_tags PreOrder0.
  intros w r w'. rewrite apply_customizations_render. intros [= <- <-].
  unfold after_customizations.
  destruct (HttpDate.date_time_string (clock w (ticks w))).
  - etransitivity; [apply R_ticks|apply R_tags].
  - apply R_ticks.
Qed.

Lemma keeps_send_response code : keeps R (send_response code).
Proof using R_sent PreOrder0.
  unfold send_response. apply keeps_bind; [apply _|apply keeps_emit|intros _].
  apply keeps_bind; [apply _|by apply keeps_gets|].
  intros [[|c v]|]; first [by apply keeps_ret|apply keeps_emit].
Qed.

Lemma keeps_end_headers : keeps R end_headers.
Proof using R_sent R_peer PreOrder0.
  unfold end_headers. apply keeps_bind; [apply _|apply keeps_socket_write|].
  intros _. apply keeps_emit.
Qed.

Lemma keeps_wfile_write b : keeps R (wfile_write b).
Proof using R_sent R_peer PreOrder0.
  unfold wfile_write. apply keeps_bind; [apply _|apply keeps_socket_write|].
  intros _. apply keeps_emit.
Qed.

Ltac kbind := apply keeps_bind; [apply _| |intros ?].

Lemma keeps_responder response_id : keeps R (responder rt response_id).
Proof using All.
  unfold responder. kbind; [by apply keeps_gets|].
  destruct (a !! response_id) as [resp|]; [|by apply keeps_raise].
  kbind. { destruct (resp_is_empty resp); [apply R_log|by apply keeps_ret]. }
  kbind. { apply keeps_modify. intros w. apply R_server. }
  kbind. { apply keeps_apply_customizations. }
  kbind. { by apply keeps_lift. }
  kbind. { apply keeps_send_response. }
  kbind.
  { destruct (resp_headers resp); [|by apply keeps_ret].
    apply keeps_modify. intros w. apply R_responses. }
  kbind.
  { apply keeps_forM; [apply _|]. intros [k v].
    destruct (decide (k = py "Server")); [by apply keeps_ret|].
    kbind; [apply keeps_apply_customizations|apply keeps_emit]. }
  kbind; [apply keeps_end_headers|apply keeps_wfile_write].
Qed.
End HandlerKeeps.


Lemma responder_log_grows rt response_id : keeps log_grows (responder rt response_id).
Proof.
  apply keeps_responder; try (intros ? w; exists []; by rewrite app_nil_r).
  - apply _.
  - intros m. apply keeps_modify. intros w. by exists [m].
Qed.

(** ** The choice of a signature and of a response id *)

Section Selection.
Variable rt : Runtime.
Variable score_request : RequestShim -> Signature -> Z.
Variable request : RequestShim.
Abbreviation score := (score_request request).
Abbreviation step := (scan_step score_request request).

Lemma scan_step_gt best s :
  fst best < score s -> step best s = (score s, Some s).
Proof. unfold scan_step. intros H. by destruct (Z.ltb_spec (fst best) (score s)); [|lia]. Qed.

Lemma scan_step_le best s : score s <= fst best -> step best s = best.
Proof. unfold scan_step. intros H. by destruct (Z.ltb_spec (fst best) (score s)); [lia|]. Qed.

Lemma scan_below l best m :
  Forall (fun x => score x < m) l -> fst best < m -> fst (fold_left step l best) < m.
Proof.
  intros Hl. revert best. induction Hl as [|x l Hx _ IH]; intros best Hb; [done|].
  cbn [fold_left]. apply IH. unfold scan_step.
  by destruct (Z.ltb_spec (fst best) (score x)).
Qed.

Lemma scan_stays l best :
  Forall (fun x => score x <= fst best) l -> fold_left step l best = best.
Proof.
  induction 1 as [|x l Hx _ IH]; [done|].
  cbn [fold_left]. by rewrite scan_step_le.
Qed.

(** What the loop has found after any part of the list: nothing above -1,
    or a signature of the part that no other of the part outscores. *)
Lemma scan_invariant l seen best :
  Forall (fun x => score x <= fst best) seen ->
  match snd best with
  | Some s => s ∈ seen /\ fst best = score s
  | None => fst best = -1
  end ->
  let best' := fold_left step l best in
  Forall (fun x => score x <= fst best') (seen ++ l) /\
  match snd best' with
  | Some s => s ∈ seen ++ l /\ fst best' = score s
  | None => fst best' = -1
  end.
Proof.
  revert seen best. induction l as [|x l IH]; intros seen best Hseen Hbest.
  - cbn. by rewrite app_nil_r.
  - cbn [fold_left]. replace (seen ++ x :: l) with ((seen ++ [x]) ++ l)
      by (by rewrite <- app_assoc).
    apply IH; unfold scan_step; destruct (Z.ltb_spec (fst best) (score x)); cbn [fst snd].
    + apply Forall_app. split; [|by repeat constructor].
      eapply Forall_impl; [exact Hseen|]. cbn. intros; lia.
    + apply Forall_app. split; [done|]. by repeat constructor.
    + split; [|done]. apply elem_of_app. right. by left.
    + destruct (snd best); [|done]. destruct Hbest. split; [|done].
      apply elem_of_app. by left.
Qed.

Lemma best_match_spec sigs :
  let best := best_match score_request request sigs in
  Forall (fun x => score x <= fst best) sigs /\
  match snd best with
  | Some s => s ∈ sigs /\ fst best = score s
  | None => fst best = -1
  end.
Proof. apply (scan_invariant sigs [] (-1, None)); [constructor|done]. Qed.

Lemma random_choice_in rnd l :
  l <> [] -> exists x, random_choice rnd l = Ok x /\ x ∈ l.
Proof.
  destruct l as [|a l]; [done|]. intros _. unfold random_choice.
  eexists. split; [done|]. apply list_elem_of_In, nth_In.
  apply Nat.mod_upper_bound. done.
Qed.
End Selection.

Lemma sample_runtime_ok : set_iter_ok sample_runtime.
Proof.
  intros l. split; [apply NoDup_remove_dups|].
  intros x. apply elem_of_remove_dups.
Qed.

Lemma handle_request_logs rt score_request rq rnd w response_id r w' :
  choose_response_id rnd
    (best_match score_request
       (mkRequestShim (unquote rt (rq_path rq)) (rq_command rq)
          (rq_client_address rq) (make_shim_headers rt (rq_headers rq)))
       (signatures w)) = Ok response_id ->
  handle_request rt score_request rq rnd w = (r, w') ->
  exists l,
    logged w' = logged w ++
      LogSending response_id
        (snd (best_match score_request
           (mkRequestShim (unquote rt (rq_path rq)) (rq_command rq)
              (rq_client_address rq) (make_shim_headers rt (rq_headers rq)))
           (signatures w))) :: l.
Proof.
  intros Hc. unfold handle_request. rewrite bind_run, gets_run. cbv beta iota zeta.
  rewrite bind_run, lift_run, Hc. cbv beta iota.
  rewrite bind_run. unfold log at 1. rewrite modify_run. cbv beta iota.
  intros H.
  match type of H with
  | try_except ?b ?e ?h ?w0 = _ => assert (K : keeps log_grows (try_except b e h))
  end.
  2:{ apply K in H as [l Hl]. exists l. rewrite Hl. cbn [logged set_logged].
      by rewrite <- app_assoc. }
  apply keeps_try; [apply _| |].
  - apply keeps_bind; [apply _|apply responder_log_grows|intros _].
    apply keeps_bind; [apply _|apply keeps_lift, _|intros ?].
    apply keeps_bind; [apply _|apply keeps_lift, _|intros ?].
    apply keeps_bind; [apply _| |intros ?].
    { apply keeps_time_time. intros n w0. exists []. by rewrite app_nil_r. }
    apply keeps_bind; [apply _|apply keeps_gets, _|intros ?].
    apply keeps_modify. intros w0. exists []. by rewrite app_nil_r.
  - apply keeps_modify. intros w0. by exists [LogClientDisconnected].
Qed.

(** C1.  For every request [handle_request] handles, when every signature
    of the agent has a candidate to offer: if the best score is above zero
    and a best signature was found, the response id chosen is one of that
    signature's candidates, and that signature is one of the agent's that
    no other outscores; otherwise the response id is 1.  So the id is among
    the best signature's candidates or is 1; it is the id [handle_request]
    logs and sends. *)
Theorem chosen_response_id_from_best_signature
    rt score_request rq rnd w :
  Forall (fun s => candidates s <> []) (signatures w) ->
  let request :=
    mkRequestShim (unquote rt (rq_path rq)) (rq_command rq)
      (rq_client_address rq) (make_shim_headers rt (rq_headers rq)) in
  let best := best_match score_request request (signatures w) in
  exists response_id,
    choose_response_id rnd best = Ok response_id /\
    (forall s, snd best = Some s -> sig_truthy s = true -> 0 < fst best ->
       response_id ∈ candidates s /\ s ∈ signatures w /\
       Forall (fun x => score_request request x <= score_request request s)
         (signatures w)) /\
    (~ (exists s, snd best = Some s /\ sig_truthy s = true /\ 0 < fst best) ->
       response_id = 1) /\
    ((exists s, snd best = Some s /\ response_id ∈ candidates s) \/
     response_id = 1) /\
    (forall r w', handle_request rt score_request rq rnd w = (r, w') ->
       exists l, logged w' = logged w ++ LogSending response_id (snd best) :: l).
Proof.
  intros Hcand request best.
  destruct (best_match_spec score_request request (signatures w)) as [Hmax Hbest].
  fold best in Hmax, Hbest.
  assert (exists response_id, choose_response_id rnd best = Ok response_id /\
    (forall s, snd best = Some s -> sig_truthy s = true -> 0 < fst best ->
       response_id ∈ candidates s) /\
    (~ (exists s, snd best = Some s /\ sig_truthy s = true /\ 0 < fst best) ->
       response_id = 1)) as (rid & Hc & Hin & Hone).
  { unfold choose_response_id. destruct (snd best) as [s|] eqn:Es.
    - destruct Hbest as [Hs _].
      destruct (sig_truthy s) eqn:Et; cbn [andb].
      + destruct (Z.ltb_spec 0 (fst best)).
        * rewrite Forall_forall in Hcand.
          destruct (random_choice_in rnd (candidates s) (Hcand s Hs)) as (x & Hx & Hxin).
          exists x. split; [done|]. split; [by intros ? [= <-]|].
          intros Hn. exfalso. apply Hn. by exists s.
        * exists 1. split; [done|]. split; [intros; lia|done].
      + exists 1. split; [done|]. split; [intros ? [= <-] ?; congruence|].
        done.
    - exists 1. split; [done|]. split; [done|done]. }
  exists rid. split; [done|]. split; [|split; [done|split]].
  - intros s Es Ht Hp. split; [by apply Hin|].
    rewrite Es in Hbest. destruct Hbest as [Hs Hf]. split; [done|].
    by rewrite <- Hf.
  - destruct (snd best) as [s|] eqn:Es; [|right; apply Hone; by intros (? & ? & _)].
    destruct (sig_truthy s) eqn:Et;
      [|right; apply Hone; intros (? & [= <-] & ? & _); congruence].
    destruct (Z.ltb_spec 0 (fst best)) as [Hp|Hp];
      [|right; apply Hone; intros (? & _ & _ & ?); lia].
    left. exists s. split; [done|]. by apply Hin.
  - intros r w'. by apply handle_request_logs.
Qed.

Lemma chosen_response_id_from_best_signature_witness :
  exists response_id,
    choose_response_id 1
      (best_match sample_score
         (mkRequestShim (unquote sample_runtime (rq_path sample_request))
            (rq_command sample_request) (rq_client_address sample_request)
            (make_shim_headers sample_runtime (rq_headers sample_request)))
         (signatures sample_world)) = Ok response_id /\
    response_id = 3.
Proof.
  destruct (chosen_response_id_from_best_signature sample_runtime sample_score
              sample_request 1 sample_world) as (rid & Hc & _).
  - repeat constructor; discriminate.
  - exists rid. split; [exact Hc|]. vm_compute in Hc. congruence.
Defined.

(** C2 (amended).  When the greatest score is above -1, the score the
    loop starts from, the loop selects the first signature, in the order of
    the agent's list, that has the greatest score: a signature met later
    replaces the current one only with a strictly greater score.  When the
    greatest score is not above -1, the loop selects no signature. *)
Theorem first_best_signature_wins score_request request sigs s :
  first_best (score_request request) sigs s ->
  (-1 < score_request request s ->
   best_match score_request request sigs = (score_request request s, Some s)) /\
  (score_request request s <= -1 ->
   best_match score_request request sigs = (-1, None)).
Proof.
  intros (l1 & l2 & -> & H1 & H2). unfold best_match. split; intros Hs.
  - rewrite fold_left_app. cbn [fold_left].
    rewrite scan_step_gt by (by apply scan_below).
    by rewrite scan_stays.
  - apply scan_stays. cbn [fst]. apply Forall_app. split.
    + eapply Forall_impl; [exact H1|]. cbn. intros; lia.
    + constructor; [done|]. eapply Forall_impl; [exact H2|]. cbn. intros; lia.
Qed.

Lemma first_best_signature_wins_witness :
  first_best (sample_score (mkRequestShim [] [] [] [])) sample_signatures
    (mkSignature (Some [2; 3]) [(py "id", py "1")]) /\
  best_match sample_score (mkRequestShim [] [] [] []) sample_signatures
  = (5, Some (mkSignature (Some [2; 3]) [(py "id", py "1")])).
Proof.
  assert (H : first_best (sample_score (mkRequestShim [] [] [] [])) sample_signatures
                (mkSignature (Some [2; 3]) [(py "id", py "1")])).
  { exists [], [mkSignature (Some [4]) [(py "id", py "2")]].
    split; [reflexivity|]. split; [constructor|].
    constructor; [vm_compute; discriminate|constructor]. }
  split; [exact H|].
  apply (first_best_signature_wins sample_score (mkRequestShim [] [] [] [])
           sample_signatures (mkSignature (Some [2; 3]) [(py "id", py "1")]) H).
  vm_compute. reflexivity.
Defined.

(** C2 as stated fails: two signatures tie at the greatest score, -2,
    which is not above the -1 the loop starts from; none is selected. *)
Lemma tie_below_start_selects_none :
  first_best (fun _ => -2) sample_signatures
    (mkSignature (Some [2; 3]) [(py "id", py "1")]) /\
  best_match (fun _ _ => -2) (mkRequestShim [] [] [] []) sample_signatures
  = (-1, None).
Proof.
  split; [|reflexivity].
  exists [], [mkSignature (Some [4]) [(py "id", py "2")]].
  split; [reflexivity|]. split; [constructor|].
  constructor; [lia|constructor].
Qed.

(** ** Signals *)

Module SignalFacts.
Import Signals.

Lemma run_exited p acts : exited p = true -> run p acts = p.
Proof.
  intros H. unfold run. induction acts as [|a acts IH]; [done|].
  cbn [fold_left]. unfold step at 2. by rewrite H.
Qed.

(** C10 (amended).  A shutdown signal starts an activation of the handler
    whatever runs at that moment, a shutdown included; one delivery to the
    running process, run to its end, makes the three calls of the release
    sequence once each, in order, and ends the process; after that no
    delivery and no step changes anything. *)
Theorem shutdown_signal_release_sequence (s : signal) :
  handler_of s = shutdown_handler ->
  (forall p, exited p = false ->
     stack (step p (Deliver s)) = shutdown_handler :: stack p /\
     calls (step p (Deliver s)) = calls p) /\
  run running [Deliver s; Run; Run; Run]
  = mkProc [] [AgentShutdown; StunnelShutdown; SysExit 0] true /\
  (forall acts,
     run (run running [Deliver s; Run; Run; Run]) acts
     = run running [Deliver s; Run; Run; Run]).
Proof.
  intros Hs. split; [|split].
  - intros p Hp. unfold step. rewrite Hp. cbn. by rewrite Hs.
  - cbn. rewrite Hs. reflexivity.
  - intros acts. apply run_exited. cbn. rewrite Hs. reflexivity.
Qed.

Lemma shutdown_signal_release_sequence_witness :
  calls (run running [Deliver SIGTERM; Run; Run; Run])
  = [AgentShutdown; StunnelShutdown; SysExit 0].
Proof.
  destruct (shutdown_signal_release_sequence SIGTERM) as (_ & H & _).
  - reflexivity.
  - rewrite H. reflexivity.
Defined.

(** C10 as stated fails: a second SIGTERM, delivered after the agent's
    shutdown and before the tunnel's, is no no-op: the handler is entered
    again and the agent is shut down twice. *)
Lemma second_signal_reenters :
  shutting_down (run running [Deliver SIGTERM; Run]) /\
  step (run running [Deliver SIGTERM; Run]) (Deliver SIGTERM)
    <> run running [Deliver SIGTERM; Run] /\
  calls (run running [Deliver SIGTERM; Run; Deliver SIGTERM; Run; Run; Run])
  = [AgentShutdown; AgentShutdown; StunnelShutdown; SysExit 0] /\
  count_call AgentShutdown
    (run running [Deliver SIGTERM; Run; Deliver SIGTERM; Run; Run; Run]) = 2%nat.
Proof.
  split; [|split; [|split]].
  - split; [reflexivity|].
    exists [StunnelShutdown; SysExit 0], []. split; [reflexivity|].
    by exists [AgentShutdown].
  - discriminate.
  - reflexivity.
  - reflexivity.
Qed.

End SignalFacts.

(** ** Header dictionaries *)

Lemma dict_set_keys (k : pystr) (v : pystr) d :
  k ∈ List.map fst d -> List.map fst (dict_set k v d) = List.map fst d.
Proof.
  induction d as [|[k' v'] d IH]; cbn; [by intros ?%elem_of_nil|].
  destruct (decide (k' = k)) as [->|Hne]; [done|].
  intros [?|?]%elem_of_cons; [congruence|]. cbn. by rewrite IH.
Qed.

Lemma dict_set_keys_new (k : pystr) (v : pystr) d :
  k ∉ List.map fst d -> List.map fst (dict_set k v d) = List.map fst d ++ [k].
Proof.
  induction d as [|[k' v'] d IH]; cbn; [done|].
  intros [? ?]%not_elem_of_cons.
  destruct (decide (k' = k)) as [->|Hne]; [done|]. cbn. by rewrite IH.
Qed.

Lemma dict_set_NoDup (k : pystr) (v : pystr) d :
  NoDup (List.map fst d) -> NoDup (List.map fst (dict_set k v d)).
Proof.
  intros H. destruct (decide (k ∈ List.map fst d)).
  - by rewrite dict_set_keys.
  - rewrite dict_set_keys_new by done. apply NoDup_app. split; [done|].
    split; [|apply NoDup_singleton]. by intros x Hx ->%list_elem_of_singleton.
Qed.

Lemma values_named_absent name (d : list (pystr * pystr)) :
  name ∉ List.map fst d -> values_named name d = [].
Proof.
  unfold values_named. induction d as [|[k v] d IH]; cbn; [done|].
  intros [? ?]%not_elem_of_cons. destruct (decide (k = name)); [congruence|]. auto.
Qed.

Lemma values_named_set name v d :
  NoDup (List.map fst d) -> values_named name (dict_set name v d) = [v].
Proof.
  unfold values_named. induction d as [|[k' v'] d IH]; cbn.
  - by rewrite decide_True.
  - intros [Hk Hd]%NoDup_cons. destruct (decide (k' = name)) as [->|Hne]; cbn.
    + rewrite decide_True by done. f_equal. by apply values_named_absent.
    + rewrite decide_False by done. auto.
Qed.

Lemma values_named_filter name d :
  name <> py "Server" ->
  values_named name (List.filter not_server d) = values_named name d.
Proof.
  intros Hn. unfold values_named. induction d as [|[k v] d IH]; cbn; [done|].
  unfold not_server at 1. cbn [fst].
  destruct (decide (k = py "Server")) as [->|Hk].
  - rewrite bool_decide_eq_false_2 by (by intros ?).
    rewrite decide_False by done. exact IH.
  - rewrite bool_decide_eq_true_2 by done. cbn.
    destruct (decide (k = name)); by rewrite IH.
Qed.

Lemma values_named_app name d1 d2 :
  values_named name (d1 ++ d2) = values_named name d1 ++ values_named name d2.
Proof. apply omap_app. Qed.

Lemma headers_named_app name e1 e2 :
  headers_named name (e1 ++ e2) = headers_named name e1 ++ headers_named name e2.
Proof. apply omap_app. Qed.

Lemma str_of_uint_digits u :
  Forall (fun c => 48 <= c <= 57) (py (NilEmpty.string_of_uint u)).
Proof.
  induction u; cbn; try constructor; try done; cbn; lia.
Qed.

Lemma str_of_nat_digits n : Forall (fun c => 48 <= c <= 57) (str_of_nat n).
Proof. apply str_of_uint_digits. Qed.

Lemma str_of_nat_no_star n : 42 ∉ str_of_nat n.
Proof.
  intros H. pose proof (str_of_nat_digits n) as Hd.
  rewrite Forall_forall in Hd. apply Hd in H. lia.
Qed.

Section ResponderFacts.
Variable rt : Runtime.

(** The headers the loop sends under one name, against the dictionary. *)
Lemma header_events_named name hevs hs :
  Forall2 (header_event rt) hevs hs ->
  Forall2 (fun v' v => exists tags now, render rt tags now v = Ok v')
    (headers_named name hevs) (values_named name hs).
Proof.
  induction 1 as [|e [k v] hevs hs (tags & now & v' & -> & Hr) _ IH]; [constructor|].
  unfold headers_named, values_named in *. cbn.
  destruct (decide (k = name)); [|exact IH].
  constructor; [|exact IH]. by exists tags, now.
Qed.

Lemma header_events_keys hevs hs k v :
  Forall2 (header_event rt) hevs hs -> SendHeader k v ∈ hevs -> k ∈ List.map fst hs.
Proof.
  induction 1 as [|e [k' v'] hevs hs (tags & now & v0 & -> & Hr) _ IH].
  - by intros ?%elem_of_nil.
  - cbn. intros [[= -> ->]|?]%elem_of_cons; [by left|right; auto].
Qed.

Lemma header_events_status hevs hs :
  Forall2 (header_event rt) hevs hs ->
  Forall (fun e => exists k v, e = SendHeader k v) hevs.
Proof.
  induction 1 as [|e [k' v'] hevs hs (tags & now & v0 & -> & Hr) _ IH];
    constructor; eauto.
Qed.
End ResponderFacts.

Lemma dict_set_keys_sub (k k' : pystr) (v : pystr) d :
  k' ∈ List.map fst (dict_set k v d) -> k' = k \/ k' ∈ List.map fst d.
Proof.
  destruct (decide (k ∈ List.map fst d)).
  - rewrite dict_set_keys by done. auto.
  - rewrite dict_set_keys_new by done.
    intros [?|?%list_elem_of_singleton]%elem_of_app; auto.
Qed.

Lemma headers_named_server_events name s :
  name <> py "Server" -> headers_named name (server_events s) = [].
Proof.
  intros H. destruct s as [[|c v]|]; try done.
  unfold headers_named. cbn.
  destruct (decide _) as [E|]; [|done]. exfalso. apply H. symmetry. exact E.
Qed.

Lemma last_after {A : Type} (a : A) l1 l2 x y :
  last (a :: l1 ++ l2 ++ [x; y]) = Some y.
Proof.
  rewrite app_comm_cons, app_assoc. change [x; y] with ([x] ++ [y]).
  rewrite app_assoc. apply last_snoc.
Qed.

(** C3.  For every response [responder] sends, the [Content-Length]
    header, sent once, carries the number of bytes of the UTF-8 encoding of
    the body the Template Engine has produced, which are the bytes written
    as the body; a run that fails before the header is reached sends
    none. *)
Theorem content_length_is_templated_body_length rt response_id resp w r w' :
  set_iter_ok rt ->
  NoDup (List.map fst (default [] (resp_headers resp))) ->
  responses w !! response_id = Some resp ->
  responder rt response_id w = (r, w') ->
  exists evs, sent w' = sent w ++ evs /\
    ((headers_named (py "Content-Length") evs = [] /\ r <> Ok tt) \/
     exists body bytes,
       render rt (response_customizations w) (clock w (ticks w))
         (default (py "Not Found") (resp_body resp)) = Ok body /\
       encode_utf8 body = Ok bytes /\
       headers_named (py "Content-Length") evs = [str_of_nat (length bytes)] /\
       (r = Ok tt -> last evs = Some (WriteBody bytes))).
Proof.
  intros Hset Hnodup Hlook Hrun.
  destruct (responder_trace rt response_id resp w r w' Hlook Hrun)
    as (evs & Hsent & Hcases).
  exists evs. split; [done|].
  destruct Hcases as [[-> Hr]|(body & bytes & hevs & hs1 & hs2 & tail
          & Hbody & Hbytes & Hf & H2 & -> & Htail)]; [by left|].
  assert (Hv : values_named (py "Content-Length") hs1
               ++ values_named (py "Content-Length") hs2
               = [str_of_nat (length bytes)]).
  { rewrite <- values_named_app, <- Hf, values_named_filter by done.
    unfold response_headers. apply values_named_set. by apply dict_set_NoDup. }
  assert (Hn : headers_named (py "Content-Length")
                 (SendStatus (status_of resp bytes)
                  :: server_events (dict_get (py "Server") (default [] (resp_headers resp)))
                  ++ hevs ++ tail)
               = headers_named (py "Content-Length") hevs).
  { change (SendStatus ?c :: ?l) with ([SendStatus c] ++ l).
    rewrite !headers_named_app, headers_named_server_events by done.
    destruct Htail as [[-> _]|[(_ & -> & _)|(_ & -> & _)]]; cbn; by rewrite app_nil_r. }
  rewrite Hn.
  pose proof (header_events_named rt (py "Content-Length") hevs hs1 H2) as Hrel.
  destruct (values_named (py "Content-Length") hs1) as [|v vs] eqn:E1.
  - apply Forall2_nil_inv_r in Hrel. left. split; [done|].
    cbn in Hv. destruct Htail as [[_ ?]|[(-> & _)|(-> & _)]]; done.
  - assert (v = str_of_nat (length bytes) /\ vs = []) as [-> ->].
    { cbn in Hv. injection Hv as -> Hv. by apply app_eq_nil in Hv as [-> _]. }
    apply Forall2_cons_inv_r in Hrel as (v' & l' & (tags & now & Hrd) & Hrest & ->).
    apply Forall2_nil_inv_r in Hrest as ->.
    apply render_no_star in Hrd; [|done|apply str_of_nat_no_star]. subst v'.
    right. exists body, bytes. repeat split; try done.
    intros ->. destruct Htail as [[_ ?]|[(_ & _ & ?)|(_ & -> & _)]]; try done.
    apply last_after.
Qed.

Lemma content_length_is_templated_body_length_witness :
  NoDup (List.map fst (default [] (resp_headers sample_response))) /\
  headers_named (py "Content-Length")
    (sent (snd (responder sample_runtime 1 sample_world))) = [py "54"] /\
  last (sent (snd (responder sample_runtime 1 sample_world)))
  = Some (WriteBody (py "Server: Apache/2.4.41 at Tue, 03 Nov 2026 14:05:00 GMT")).
Proof.
  assert (N : NoDup (List.map fst (default [] (resp_headers sample_response)))).
  { apply (bool_decide_unpack _). vm_compute. exact I. }
  split; [exact N|].
  destruct (content_length_is_templated_body_length sample_runtime 1 sample_response
              sample_world (fst (responder sample_runtime 1 sample_world))
              (snd (responder sample_runtime 1 sample_world)))
    as (evs & Hs & [[_ Hr]|(body & bytes & Hb & He & Hn & Hl)]);
    [apply sample_runtime_ok|exact N|reflexivity|apply surjective_pairing| |].
  - exfalso. apply Hr. vm_compute. reflexivity.
  - change (sent sample_world ++ evs) with evs in Hs. rewrite Hs, Hn.
    rewrite Hl by (vm_compute; reflexivity).
    vm_compute in Hb. injection Hb as <-.
    vm_compute in He. injection He as <-.
    split; reflexivity.
Defined.

(** C4.  For every response whose status line is sent: a response with an
    explicit status code is sent with that code; one without is sent with
    200 when the body the Template Engine has produced, encoded in UTF-8,
    is longer than the text "PAGE NOT FOUND.", and with 404 when it is not. *)
Theorem status_code_resolution rt response_id resp w r w' :
  responses w !! response_id = Some resp ->
  responder rt response_id w = (r, w') ->
  exists evs, sent w' = sent w ++ evs /\
    ((evs = [] /\ r <> Ok tt) \/
     exists body bytes code rest,
       render rt (response_customizations w) (clock w (ticks w))
         (default (py "Not Found") (resp_body resp)) = Ok body /\
       encode_utf8 body = Ok bytes /\
       evs = SendStatus code :: rest /\
       Forall (fun e => forall c, e <> SendStatus c) rest /\
       match resp_status_code resp with
       | Some explicit => code = explicit
       | None =>
           ((length (py "PAGE NOT FOUND.") < length bytes)%nat /\ code = 200) \/
           ((length bytes <= length (py "PAGE NOT FOUND."))%nat /\ code = 404)
       end).
Proof.
  intros Hlook Hrun.
  destruct (responder_trace rt response_id resp w r w' Hlook Hrun)
    as (evs & Hsent & Hcases).
  exists evs. split; [done|].
  destruct Hcases as [[-> Hr]|(body & bytes & hevs & hs1 & hs2 & tail
          & Hbody & Hbytes & Hf & H2 & -> & Htail)]; [by left|].
  right. exists body, bytes, (status_of resp bytes). eexists.
  split; [done|]. split; [done|]. split; [reflexivity|]. split.
  - apply Forall_app. split.
    { by destruct (dict_get _ _) as [[|c v]|]; repeat constructor. }
    apply Forall_app. split.
    + eapply Forall_impl; [apply (header_events_status rt _ _ H2)|].
      by intros e (k & v & ->) c.
    + destruct Htail as [[-> _]|[(_ & -> & _)|(_ & -> & _)]]; by repeat constructor.
  - unfold status_of. destruct (resp_status_code resp) as [c|]; [done|]. cbn [default].
    destruct (Nat.ltb_spec (length (py "PAGE NOT FOUND.")) (length bytes));
      [left|right]; split; done || lia.
Qed.

Lemma status_code_resolution_witness :
  responses sample_world !! 3 = Some (mkResponse None None None []) /\
  exists rest,
    sent (snd (responder sample_runtime 3 sample_world)) = SendStatus 404 :: rest.
Proof.
  split; [reflexivity|].
  destruct (status_code_resolution sample_runtime 3 (mkResponse None None None [])
              sample_world (fst (responder sample_runtime 3 sample_world))
              (snd (responder sample_runtime 3 sample_world)))
    as (evs & Hs & [[_ Hr]|(body & bytes & code & rest & Hb & He & -> & _ & Hc)]);
    [reflexivity|apply surjective_pairing| |].
  - exfalso. apply Hr. vm_compute. reflexivity.
  - change (sent sample_world ++ ?l) with l in Hs. exists rest. rewrite Hs.
    vm_compute in Hb. injection Hb as <-.
    vm_compute in He. injection He as <-.
    cbn [resp_status_code] in Hc. destruct Hc as [[Hlt _]|[_ ->]]; [|reflexivity].
    exfalso. vm_compute in Hlt. lia.
Defined.

Lemma headers_named_cons name e evs :
  headers_named name (e :: evs)
  = match e with
    | SendHeader k v =>
        if decide (k = name) then v :: headers_named name evs
        else headers_named name evs
    | _ => headers_named name evs
    end.
Proof.
  destruct e as [|k v| |]; try reflexivity.
  unfold headers_named. cbn. by destruct (decide (k = name)).
Qed.

Lemma headers_named_none name evs :
  (forall k v, SendHeader k v ∈ evs -> k <> name) -> headers_named name evs = [].
Proof.
  induction evs as [|e evs IH]; [done|]. intros H.
  rewrite headers_named_cons, IH by (intros k v ?; apply (H k v); by right).
  destruct e as [|k v| |]; try done.
  rewrite decide_False; [done|]. apply (H k v). by left.
Qed.

(** C8 (amended).  When the header map of a response has a [Server] entry
    that is not empty, every run of [responder] that sends the status line
    sends that value as the [Server] header right after it, and no other
    [Server] header: the entry is passed over in the loop over the map, and
    every header the loop sends is an entry of the map, [Content-Type] or
    [Content-Length], so that nothing the protocol layer would add by
    default is sent. *)
Theorem server_header_sent_once rt response_id resp w r w' server :
  responses w !! response_id = Some resp ->
  dict_get (py "Server") (default [] (resp_headers resp)) = Some server ->
  server <> [] ->
  responder rt response_id w = (r, w') ->
  exists evs, sent w' = sent w ++ evs /\
    ((evs = [] /\ r <> Ok tt) \/
     exists code rest,
       evs = SendStatus code :: SendHeader (py "Server") server :: rest /\
       headers_named (py "Server") evs = [server] /\
       forall k v, SendHeader k v ∈ rest ->
         k <> py "Server" /\
         k ∈ py "Content-Type" :: py "Content-Length"
             :: List.map fst (default [] (resp_headers resp))).
Proof.
  intros Hlook Hserver Hne Hrun.
  destruct (responder_trace rt response_id resp w r w' Hlook Hrun)
    as (evs & Hsent & Hcases).
  exists evs. split; [done|].
  destruct Hcases as [[-> Hr]|(body & bytes & hevs & hs1 & hs2 & tail
          & Hbody & Hbytes & Hf & H2 & -> & Htail)]; [by left|].
  right. rewrite Hserver. destruct server as [|c server]; [done|].
  cbn [server_events app]. eexists _, _. split; [reflexivity|].
  assert (Hkeys : forall k v, SendHeader k v ∈ hevs ++ tail ->
            k <> py "Server" /\
            k ∈ py "Content-Type" :: py "Content-Length"
                :: List.map fst (default [] (resp_headers resp))).
  { intros k v [Hin|Hin]%elem_of_app.
    - apply (header_events_keys rt _ _ _ _ H2) in Hin.
      assert (k ∈ List.map fst (List.filter not_server (response_headers resp bytes))) as Hin'.
      { rewrite Hf, List.map_app. apply elem_of_app. by left. }
      apply list_elem_of_In, in_map_iff in Hin' as ([k' v'] & <- & Hin').
      apply filter_In in Hin' as [Hin' Hns]. cbn [fst].
      split; [by apply bool_decide_eq_true in Hns|].
      apply (in_map fst), list_elem_of_In in Hin'. cbn [fst] in Hin'.
      unfold response_headers in Hin'.
      apply dict_set_keys_sub in Hin' as [->|Hin']; [right; by left|].
      apply dict_set_keys_sub in Hin' as [->|Hin']; [by left|]. by do 2 right.
    - destruct Htail as [[-> _]|[(_ & -> & _)|(_ & -> & _)]];
        repeat (apply elem_of_cons in Hin as [Hin|Hin]; [done|]);
        by apply elem_of_nil in Hin. }
  split; [|exact Hkeys].
  rewrite !headers_named_cons, decide_True by done. f_equal.
  apply headers_named_none. intros k v Hin. by apply (Hkeys k v).
Qed.

Lemma server_header_sent_once_witness :
  dict_get (py "Server") (default [] (resp_headers sample_response)) = Some (py "nginx") /\
  headers_named (py "Server") (sent (snd (responder sample_runtime 1 sample_world)))
  = [py "nginx"].
Proof.
  split; [reflexivity|].
  destruct (server_header_sent_once sample_runtime 1 sample_response sample_world
              (fst (responder sample_runtime 1 sample_world))
              (snd (responder sample_runtime 1 sample_world)) (py "nginx"))
    as (evs & Hs & [[_ Hr]|(code & rest & _ & Hn & _)]);
    [reflexivity|reflexivity|discriminate|apply surjective_pairing| |].
  - exfalso. apply Hr. vm_compute. reflexivity.
  - change (sent sample_world ++ evs) with evs in Hs. by rewrite Hs.
Defined.

(** C8 as stated fails: the header map of response 4 has a [Server] entry,
    the empty string; the response is sent whole and has no [Server]
    header. *)
Lemma empty_server_header_not_sent :
  (resp_headers <$> responses sample_world !! 4) = Some (Some [(py "Server", [])]) /\
  fst (responder sample_runtime 4 sample_world) = Ok tt /\
  headers_named (py "Server") (sent (snd (responder sample_runtime 4 sample_world))) = [].
Proof. vm_compute. done. Qed.






(** ** The log record *)




(** ** The Template Engine on a whole text *)








